(** * EditFeatureForm: the edit buffer, the dirty check and the submit gate

    A shallow embedding of [ui/src/components/EditFeatureForm.tsx].

    Conventions of the embedding.
    - A JavaScript string is a [string]; each [ascii] is one code unit in
      the range U+0000..U+00FF.
    - A JavaScript number that holds an integer is a [Z]; [NaN] is [None].
      This is exact on the safe integers.
    - [useState] cells are the fields of a record; a handler is a function
      from the rendered state to the next state.
    - The asynchronous mutation is split in two events: the call and the
      moment it settles. *)

From Stdlib Require Import Bool List ZArith Lia Ascii String.
From Stdlib Require Import DecimalString DecimalPos DecimalZ.
Import ListNotations.

Open Scope string_scope.

(** ** The JavaScript runtime functions the component calls *)

Module JS.

(** Code units used by name. *)
Definition dquote : ascii := "034"%char.
Definition backslash : ascii := "092"%char.

(** [s.length > 0], which is also the truthiness of a string. *)
Definition truthy (s : string) : bool :=
  match s with
  | EmptyString => false
  | String _ _ => true
  end.

(** [a && b] on strings: the left operand when it is falsy, else the
    right one. *)
Definition logical_and (a b : string) : string :=
  if truthy a then b else a.

(** [a !== b] on strings. *)
Definition strict_neq (a b : string) : bool := negb (String.eqb a b).

(** [a !== b] on numbers; [NaN] differs from every number, itself included. *)
Definition number_strict_neq (a b : option Z) : bool :=
  match a, b with
  | Some x, Some y => negb (Z.eqb x y)
  | _, _ => true
  end.

(** WhiteSpace and LineTerminator code units below U+0100: TAB, LF, VT, FF,
    CR, SP and NBSP. *)
Definition isWhiteSpace (c : ascii) : bool :=
  match nat_of_ascii c with
  | 9 | 10 | 11 | 12 | 13 | 32 | 160 => true
  | _ => false
  end.

Fixpoint trimStart (s : string) : string :=
  match s with
  | EmptyString => EmptyString
  | String c r => if isWhiteSpace c then trimStart r else s
  end.

Fixpoint trimEnd (s : string) : string :=
  match s with
  | EmptyString => EmptyString
  | String c r =>
      match trimEnd r with
      | EmptyString => if isWhiteSpace c then EmptyString else String c EmptyString
      | t => String c t
      end
  end.

(** [String.prototype.trim]. *)
Definition trim (s : string) : string := trimEnd (trimStart s).

(** The value of a radix-10 digit. *)
Definition digitValue (c : ascii) : option Z :=
  match c with
  | "0"%char => Some 0%Z
  | "1"%char => Some 1%Z
  | "2"%char => Some 2%Z
  | "3"%char => Some 3%Z
  | "4"%char => Some 4%Z
  | "5"%char => Some 5%Z
  | "6"%char => Some 6%Z
  | "7"%char => Some 7%Z
  | "8"%char => Some 8%Z
  | "9"%char => Some 9%Z
  | _ => None
  end.

(** The longest prefix of radix-10 digits, read from the left on top of
    [acc]; [seen] records whether any digit was read. *)
Fixpoint readDigits (s : string) (seen : bool) (acc : Z) : bool * Z :=
  match s with
  | EmptyString => (seen, acc)
  | String c r =>
      match digitValue c with
      | Some d => readDigits r true (10 * acc + d)%Z
      | None => (seen, acc)
      end
  end.

(** [parseInt(input, 10)]: skip leading white space, take an optional sign,
    read the longest digit prefix; [NaN] when that prefix is empty. *)
Definition parseInt10 (input : string) : option Z :=
  let s := trimStart input in
  let sign :=
    match s with
    | String "-"%char _ => (-1)%Z
    | _ => 1%Z
    end in
  let s' :=
    match s with
    | String "+"%char r => r
    | String "-"%char r => r
    | _ => s
    end in
  match readDigits s' false 0%Z with
  | (true, mathInt) => Some (sign * mathInt)%Z
  | (false, _) => None
  end.

(** [String(n)] for an integer [n]: its decimal digits, a minus sign first
    when it is negative. *)
Definition String_of_number (n : Z) : string :=
  NilZero.string_of_int (Z.to_int n).

(** One lowercase hexadecimal digit. *)
Definition hexDigit (n : nat) : ascii :=
  match n with
  | 0 => "0" | 1 => "1" | 2 => "2" | 3 => "3" | 4 => "4"
  | 5 => "5" | 6 => "6" | 7 => "7" | 8 => "8" | 9 => "9"
  | 10 => "a" | 11 => "b" | 12 => "c" | 13 => "d" | 14 => "e"
  | _ => "f"
  end%char.

(** [UnicodeEscape] of a code unit below U+0100. *)
Definition unicodeEscape (c : ascii) : string :=
  let n := nat_of_ascii c in
  String backslash
    (String "u" (String "0" (String "0"
      (String (hexDigit (n / 16)) (String (hexDigit (n mod 16)) EmptyString))))).

(** The part of [QuoteJSONString] for one code unit. *)
Definition quoteChar (c : ascii) : string :=
  match nat_of_ascii c with
  | 8 => String backslash "b"
  | 9 => String backslash "t"
  | 10 => String backslash "n"
  | 12 => String backslash "f"
  | 13 => String backslash "r"
  | 34 => String backslash (String dquote EmptyString)
  | 92 => String backslash (String backslash EmptyString)
  | n => if Nat.ltb n 32 then unicodeEscape c else String c EmptyString
  end.

Fixpoint quoteBody (s : string) : string :=
  match s with
  | EmptyString => EmptyString
  | String c r => quoteChar c ++ quoteBody r
  end.

(** [QuoteJSONString]. *)
Definition quoteJSONString (s : string) : string :=
  String dquote (quoteBody s ++ String dquote EmptyString).

(** The elements of [SerializeJSONArray] joined with commas. *)
Fixpoint joinQuoted (l : list string) : string :=
  match l with
  | [] => EmptyString
  | [s] => quoteJSONString s
  | s :: r => quoteJSONString s ++ String "," (joinQuoted r)
  end.

(** [JSON.stringify] of an array of strings (no indentation). *)
Definition JSON_stringify (l : list string) : string :=
  String "[" (joinQuoted l ++ "]").

End JS.

(** ** The data of the component *)

(** [Feature] of [lib/types]: the snapshot the form is opened on.  The type
    of [id] is left open; the form only passes it on. *)
Module Feature.
Record t (Id : Type) : Type := mk {
  id : Id;
  category : string;
  name : string;
  description : string;
  priority : Z;
  steps : list string
}.
Arguments mk {Id}.
Arguments id {Id}.
Arguments category {Id}.
Arguments name {Id}.
Arguments description {Id}.
Arguments priority {Id}.
Arguments steps {Id}.
End Feature.

(** [interface Step]. *)
Module Step.
Record t : Type := mk {
  id : string;
  value : string
}.
End Step.

(** The [useState] cells of one mounted form. *)
Record State : Type := mkState {
  category : string;
  name : string;
  description : string;
  priority : string;
  steps : list Step.t;
  error : option string;
  stepCounter : nat
}.

Definition setCategory (v : string) (st : State) : State :=
  mkState v (name st) (description st) (priority st) (steps st) (error st)
    (stepCounter st).
Definition setName (v : string) (st : State) : State :=
  mkState (category st) v (description st) (priority st) (steps st) (error st)
    (stepCounter st).
Definition setDescription (v : string) (st : State) : State :=
  mkState (category st) (name st) v (priority st) (steps st) (error st)
    (stepCounter st).
Definition setPriority (v : string) (st : State) : State :=
  mkState (category st) (name st) (description st) v (steps st) (error st)
    (stepCounter st).
Definition setSteps (v : list Step.t) (st : State) : State :=
  mkState (category st) (name st) (description st) (priority st) v (error st)
    (stepCounter st).
Definition setError (v : option string) (st : State) : State :=
  mkState (category st) (name st) (description st) (priority st) (steps st) v
    (stepCounter st).
Definition setStepCounter (v : nat) (st : State) : State :=
  mkState (category st) (name st) (description st) (priority st) (steps st)
    (error st) v.

(** The [update] object handed to the mutation. *)
Record Update : Type := mkUpdate {
  u_category : string;
  u_name : string;
  u_description : string;
  u_steps : list string;
  u_priority : option Z
}.

(** What the awaited [mutateAsync] promise settles to.  A rejection carries
    the thrown value: an [Error] instance with its [message], or any other
    value (of which the form reads nothing). *)
Inductive Thrown : Type :=
  | ErrorInstance (message : string)
  | NotAnError (shown : string).

Inductive Outcome : Type :=
  | Fulfilled
  | Rejected (err : Thrown).

(** The callbacks received as props. *)
Inductive Callback : Type :=
  | onClose
  | onSaved.

(** [Array.prototype.map] with the index as second argument. *)
Fixpoint mapi_from {A B : Type} (f : A -> nat -> B) (i : nat) (l : list A)
  : list B :=
  match l with
  | [] => []
  | x :: r => f x i :: mapi_from f (S i) r
  end.

Definition mapi {A B : Type} (f : A -> nat -> B) (l : list A) : list B :=
  mapi_from f 0 l.

(** ** The component body *)

Section EditFeatureForm.

Context {Id : Type}.

(** The props [feature], and the value of [useId()], one string for the
    whole life of the mounted form. *)
Variable feature : Feature.t Id.
Variable formId : string.

(** The template [`${formId}-step-${i}`]. *)
Definition stepId (i : nat) : string :=
  formId ++ "-step-" ++ JS.String_of_number (Z.of_nat i).

(** The initialisers of the [useState] calls. *)
Definition initialSteps : list Step.t :=
  if Nat.ltb 0 (List.length (Feature.steps feature))
  then mapi (fun step i => Step.mk (stepId i) step) (Feature.steps feature)
  else [Step.mk (stepId 0) EmptyString].

(** [feature.steps.length || 1]. *)
Definition initialStepCounter : nat :=
  match List.length (Feature.steps feature) with
  | 0 => 1
  | n => n
  end.

Definition initialState : State :=
  mkState (Feature.category feature) (Feature.name feature)
    (Feature.description feature)
    (JS.String_of_number (Feature.priority feature))
    initialSteps None initialStepCounter.

Definition handleAddStep (st : State) : State :=
  setStepCounter (stepCounter st + 1)
    (setSteps (steps st ++ [Step.mk (stepId (stepCounter st)) EmptyString]) st).

Definition handleRemoveStep (id : string) (st : State) : State :=
  setSteps (filter (fun step => JS.strict_neq (Step.id step) id) (steps st)) st.

Definition handleStepChange (id value : string) (st : State) : State :=
  setSteps
    (map (fun step =>
            if String.eqb (Step.id step) id
            then Step.mk (Step.id step) value
            else step)
         (steps st))
    st.

(** [filteredSteps] of [handleSubmit]. *)
Definition filteredSteps (st : State) : list string :=
  filter (fun s => Nat.ltb 0 (String.length s))
    (map (fun s => JS.trim (Step.value s)) (steps st)).

(** The argument of [mutateAsync]. *)
Definition mutateArgs (st : State) : Id * Update :=
  (Feature.id feature,
   mkUpdate (JS.trim (category st)) (JS.trim (name st))
     (JS.trim (description st)) (filteredSteps st)
     (JS.parseInt10 (priority st))).

(** [isValid]: the value of the [&&] chain. *)
Definition isValid (st : State) : string :=
  JS.logical_and (JS.logical_and (JS.trim (category st)) (JS.trim (name st)))
    (JS.trim (description st)).

Definition currentSteps (st : State) : list string :=
  filter JS.truthy (map (fun s => JS.trim (Step.value s)) (steps st)).

Definition hasChanges (st : State) : bool :=
  JS.strict_neq (JS.trim (category st)) (Feature.category feature)
  || JS.strict_neq (JS.trim (name st)) (Feature.name feature)
  || JS.strict_neq (JS.trim (description st)) (Feature.description feature)
  || JS.number_strict_neq (JS.parseInt10 (priority st))
       (Some (Feature.priority feature))
  || JS.strict_neq (JS.JSON_stringify (currentSteps st))
       (JS.JSON_stringify (Feature.steps feature)).

(** *** The rendered form as a transition system *)

(** One mounted form: its state cells, the mutations handed to
    [mutateAsync] so far, how many of them have not settled yet, and the
    prop callbacks invoked so far. *)
Record Session : Type := mkSession {
  view : State;
  calls : list (Id * Update);
  inFlight : nat;
  notified : list Callback
}.

(** Modelled from the spec: [updateFeature.isPending] is read from the hook
    [useUpdateFeature] of [hooks/useProjects], which is not part of this
    file; the flag is true strictly during an in-flight mutation call. *)
Definition isPending (s : Session) : bool := Nat.ltb 0 (inFlight s).

(** The [disabled] attribute of the submit button. *)
Definition submitDisabled (s : Session) : bool :=
  negb (JS.truthy (isValid (view s)))
  || negb (hasChanges (view s))
  || isPending s.

(** The trash button of a row is rendered when [steps.length > 1]. *)
Definition removeRendered (st : State) : bool :=
  Nat.ltb 1 (List.length (steps st)).

(** [handleSubmit] up to the [await]: the error is cleared and the
    mutation is called. *)
Definition handleSubmit_call (s : Session) : Session :=
  mkSession (setError None (view s))
    (calls s ++ [mutateArgs (view s)])
    (inFlight s + 1)
    (notified s).

(** The message kept by the [catch] clause. *)
Definition caughtMessage (err : Thrown) : string :=
  match err with
  | ErrorInstance message => message
  | NotAnError _ => "Failed to update feature"
  end.

(** [handleSubmit] after the [await]. *)
Definition handleSubmit_settled (o : Outcome) (s : Session) : Session :=
  match o with
  | Fulfilled =>
      mkSession (view s) (calls s) (inFlight s - 1) (notified s ++ [onSaved])
  | Rejected err =>
      mkSession (setError (Some (caughtMessage err)) (view s)) (calls s)
        (inFlight s - 1) (notified s)
  end.

Definition onView (f : State -> State) (s : Session) : Session :=
  mkSession (f (view s)) (calls s) (inFlight s) (notified s).

(** What the user, or the settling promise, can do to a rendered form. *)
Inductive Event : Type :=
  | ChangeCategory (v : string)
  | ChangeName (v : string)
  | ChangeDescription (v : string)
  | ChangePriority (v : string)
  | ClickAddStep
  | ClickRemoveStep (id : string)
  | ChangeStep (id value : string)
  | SubmitForm
  | Settle (o : Outcome)
  | DismissError
  | ClickClose.

(** The effect of one event on the form as rendered from [s].  A control
    that is not rendered or is disabled runs no handler; a promise settles
    only when one is pending. *)
Definition dispatch (s : Session) (e : Event) : Session :=
  match e with
  | ChangeCategory v => onView (setCategory v) s
  | ChangeName v => onView (setName v) s
  | ChangeDescription v => onView (setDescription v) s
  | ChangePriority v => onView (setPriority v) s
  | ClickAddStep => onView handleAddStep s
  | ClickRemoveStep id =>
      if removeRendered (view s) then onView (handleRemoveStep id) s else s
  | ChangeStep id value => onView (handleStepChange id value) s
  | SubmitForm => if submitDisabled s then s else handleSubmit_call s
  | Settle o =>
      match inFlight s with
      | 0 => s
      | S _ => handleSubmit_settled o s
      end
  | DismissError => onView (setError None) s
  | ClickClose =>
      mkSession (view s) (calls s) (inFlight s) (notified s ++ [onClose])
  end.

Definition initialSession : Session := mkSession initialState [] 0 [].

Definition run (evs : list Event) : Session := fold_left dispatch evs initialSession.

(** The edit buffer: the scalar fields and the step entries. *)
Definition buffer (st : State)
  : string * string * string * string * list Step.t :=
  (category st, name st, description st, priority st, steps st).

End EditFeatureForm.

(** ** Readers used in the proofs *)

(** Reads back one quoted code unit from the head of a string. *)
Definition hexValue (c : ascii) : nat :=
  match c with
  | "0" => 0 | "1" => 1 | "2" => 2 | "3" => 3 | "4" => 4
  | "5" => 5 | "6" => 6 | "7" => 7 | "8" => 8 | "9" => 9
  | "a" => 10 | "b" => 11 | "c" => 12 | "d" => 13 | "e" => 14
  | _ => 15
  end%char.

Definition unquoteHead (s : string) : option (ascii * string) :=
  match s with
  | EmptyString => None
  | String c r =>
      if Ascii.eqb c JS.backslash then
        match r with
        | String "b" r' => Some ("008"%char, r')
        | String "t" r' => Some ("009"%char, r')
        | String "n" r' => Some ("010"%char, r')
        | String "f" r' => Some ("012"%char, r')
        | String "r" r' => Some ("013"%char, r')
        | String "u" (String _ (String _ (String h (String l r')))) =>
            Some (ascii_of_nat (16 * hexValue h + hexValue l), r')
        | String x r' =>
            if Ascii.eqb x JS.dquote then Some (JS.dquote, r')
            else if Ascii.eqb x JS.backslash then Some (JS.backslash, r')
            else None
        | EmptyString => None
        end
      else if Ascii.eqb c JS.dquote then None
      else Some (c, r)
  end.

(** What follows an element in the serialized array. *)
Definition afterElement (r : list string) : string :=
  match r with
  | [] => "]"
  | _ :: _ => String "," (JS.joinQuoted r ++ "]")
  end.

(** A string with no leading or trailing white space and at least one
    code unit. *)
Definition trimmedNonEmpty (s : string) : Prop :=
  JS.trim s = s /\ s <> EmptyString.

(** The ids of the rows. *)
Definition ids (l : list Step.t) : list string := map Step.id l.

(** The rows of a state are well formed: no id occurs twice, every id was
    minted from an index below the counter, and there is a row. *)
Definition rowsWellFormed (formId : string) (st : State) : Prop :=
  NoDup (ids (steps st))
  /\ Forall (fun x => exists i, i < stepCounter st /\ x = stepId formId i)
       (ids (steps st))
  /\ 1 <= List.length (steps st).

(** A string that is empty or made of white space only. *)
Fixpoint blank (s : string) : bool :=
  match s with
  | EmptyString => true
  | String c r => JS.isWhiteSpace c && blank r
  end.


(** The feature of scenario A, and variations of it. *)
Definition loginFeature : Feature.t nat :=
  Feature.mk 7 "UI" "Login form" "desc" 2%Z ["click"; "type"; "submit"].

Definition noStepsFeature : Feature.t nat :=
  Feature.mk 7 "UI" "Login form" "desc" 2%Z [].

Definition paddedStepFeature : Feature.t nat :=
  Feature.mk 7 "UI" "Login form" "desc" 2%Z [" click"].

(** The form of scenario A, the second row edited, then submitted. *)
Definition submittedSession : @Session nat :=
  run loginFeature ":r1:"
    [ChangeStep (stepId ":r1:" 1) "type creds"; SubmitForm].

(** A state whose category is white space only. *)
Definition blankCategoryState : State :=
  mkState "  " "Login form" "desc" "2" [] None 1.

(** ** Notions used to state further properties *)

(** The empty string, or a string whose first code unit is not white
    space. *)
Definition headNonWhite (s : string) : bool :=
  match s with
  | EmptyString => true
  | String c _ => negb (JS.isWhiteSpace c)
  end.

(** The empty string, or a string whose first code unit is not a digit. *)
Definition headNonDigit (s : string) : bool :=
  match s with
  | EmptyString => true
  | String c _ =>
      match JS.digitValue c with
      | Some _ => false
      | None => true
      end
  end.

(** The update that would write the snapshot back as it is. *)
Definition snapshotUpdate {Id : Type} (feature : Feature.t Id) : Update :=
  mkUpdate (Feature.category feature) (Feature.name feature)
    (Feature.description feature) (Feature.steps feature)
    (Some (Feature.priority feature)).

(** What every argument handed to [mutateAsync] satisfies. *)
Definition callWellFormed {Id : Type} (feature : Feature.t Id)
  (c : Id * Update) : Prop :=
  fst c = Feature.id feature
  /\ trimmedNonEmpty (u_category (snd c))
  /\ trimmedNonEmpty (u_name (snd c))
  /\ trimmedNonEmpty (u_description (snd c))
  /\ Forall trimmedNonEmpty (u_steps (snd c))
  /\ snd c <> snapshotUpdate feature.

Definition isOnSaved (c : Callback) : bool :=
  match c with
  | onSaved => true
  | onClose => false
  end.

Definition isOnClose (c : Callback) : bool :=
  match c with
  | onClose => true
  | onSaved => false
  end.

Definition isClickClose (e : Event) : bool :=
  match e with
  | ClickClose => true
  | _ => false
  end.

Definition isClickAddStep (e : Event) : bool :=
  match e with
  | ClickAddStep => true
  | _ => false
  end.


(** How many elements of a list pass a test. *)
Definition count {A : Type} (p : A -> bool) (l : list A) : nat :=
  List.length (filter p l).

(** ** Facts about the runtime functions *)

Section StringFacts.

Lemma append_assoc (a b c : string) : (a ++ b) ++ c = a ++ (b ++ c).
Proof.
  induction a as [|x a IH]; simpl; [reflexivity | now rewrite IH].
Qed.

Lemma append_cancel_l (a b c : string) : a ++ b = a ++ c -> b = c.
Proof.
  induction a as [|x a IH]; simpl; intros H; [exact H|].
  injection H as H. auto.
Qed.

Lemma truthy_true_iff (s : string) : JS.truthy s = true <-> s <> EmptyString.
Proof.
  destruct s; simpl; split; congruence.
Qed.

Lemma truthy_length (s : string) : Nat.ltb 0 (String.length s) = JS.truthy s.
Proof.
  destruct s; reflexivity.
Qed.

Lemma strict_neq_true_iff (a b : string) : JS.strict_neq a b = true <-> a <> b.
Proof.
  unfold JS.strict_neq. rewrite negb_true_iff. apply String.eqb_neq.
Qed.

Lemma strict_neq_false_iff (a b : string) : JS.strict_neq a b = false <-> a = b.
Proof.
  unfold JS.strict_neq. rewrite negb_false_iff. apply String.eqb_eq.
Qed.

Lemma number_strict_neq_true_iff (a : option Z) (n : Z) :
  JS.number_strict_neq a (Some n) = true <-> a <> Some n.
Proof.
  destruct a as [x|]; simpl.
  - rewrite negb_true_iff, Z.eqb_neq. split; congruence.
  - split; [discriminate | reflexivity].
Qed.

End StringFacts.

(** *** [JSON.stringify] separates arrays of strings *)

Section Stringify.

Lemma unquoteHead_quoteChar (c : ascii) (r : string) :
  unquoteHead (JS.quoteChar c ++ r) = Some (c, r).
Proof.
  destruct c as [[] [] [] [] [] [] [] []]; reflexivity.
Qed.

Lemma unquoteHead_dquote (r : string) : unquoteHead (String JS.dquote r) = None.
Proof. reflexivity. Qed.

Lemma quoteBody_inj (s1 : string) :
  forall s2 r1 r2,
    JS.quoteBody s1 ++ String JS.dquote r1 = JS.quoteBody s2 ++ String JS.dquote r2 ->
    s1 = s2 /\ r1 = r2.
Proof.
  induction s1 as [|c1 s1 IH]; intros [|c2 s2] r1 r2 H; simpl in H.
  - injection H as H. auto.
  - apply (f_equal unquoteHead) in H.
    rewrite append_assoc, unquoteHead_quoteChar, unquoteHead_dquote in H.
    discriminate.
  - apply (f_equal unquoteHead) in H.
    rewrite append_assoc, unquoteHead_quoteChar, unquoteHead_dquote in H.
    discriminate.
  - apply (f_equal unquoteHead) in H.
    rewrite !append_assoc, !unquoteHead_quoteChar in H.
    injection H as Hc Hr.
    destruct (IH _ _ _ Hr) as [Hs Hrest].
    subst. auto.
Qed.

Lemma quoteJSONString_inj (s1 s2 r1 r2 : string) :
  JS.quoteJSONString s1 ++ r1 = JS.quoteJSONString s2 ++ r2 ->
  s1 = s2 /\ r1 = r2.
Proof.
  unfold JS.quoteJSONString. simpl. rewrite !append_assoc. simpl.
  intros H. injection H as H. now apply quoteBody_inj.
Qed.

Lemma joinQuoted_cons (s : string) (r : list string) :
  JS.joinQuoted (s :: r) ++ "]" = JS.quoteJSONString s ++ afterElement r.
Proof.
  destruct r as [|s' r]; simpl; [reflexivity|].
  unfold JS.quoteJSONString at 1. simpl.
  rewrite !append_assoc. reflexivity.
Qed.

Lemma joinQuoted_inj (l1 : list string) :
  forall l2, JS.joinQuoted l1 ++ "]" = JS.joinQuoted l2 ++ "]" -> l1 = l2.
Proof.
  induction l1 as [|s1 r1 IH]; intros [|s2 r2] H.
  - reflexivity.
  - rewrite joinQuoted_cons in H. discriminate H.
  - rewrite joinQuoted_cons in H. discriminate H.
  - rewrite !joinQuoted_cons in H.
    apply quoteJSONString_inj in H as [-> Hr].
    f_equal.
    destruct r1 as [|a1 r1], r2 as [|a2 r2]; simpl in Hr;
      try reflexivity; try discriminate Hr.
    apply IH. injection Hr as Hr. exact Hr.
Qed.

Lemma JSON_stringify_inj (l1 l2 : list string) :
  JS.JSON_stringify l1 = JS.JSON_stringify l2 <-> l1 = l2.
Proof.
  split; [|now intros ->].
  unfold JS.JSON_stringify. intros H. injection H as H.
  now apply joinQuoted_inj.
Qed.

End Stringify.

(** *** [parseInt] reads back what [String] prints *)

Section Numbers.

Local Open Scope Z_scope.

Lemma readDigits_acc (u : Decimal.uint) :
  forall (seen : bool) (acc : positive),
    JS.readDigits (NilEmpty.string_of_uint u) seen (Z.pos acc)
    = (match u with Decimal.Nil => seen | _ => true end,
       Z.pos (Pos.of_uint_acc u acc)).
Proof.
  induction u; intros seen acc;
    cbn [NilEmpty.string_of_uint JS.readDigits JS.digitValue Pos.of_uint_acc];
    try reflexivity;
    match goal with
    | |- JS.readDigits _ _ ?z = _ =>
        match goal with
        | |- context [Pos.of_uint_acc _ ?q] =>
            replace z with (Z.pos q) by lia
        end
    end;
    rewrite IHu; destruct u; reflexivity.
Qed.

Lemma readDigits_zero (u : Decimal.uint) :
  forall seen : bool,
    JS.readDigits (NilEmpty.string_of_uint u) seen 0
    = (match u with Decimal.Nil => seen | _ => true end,
       Z.of_N (Pos.of_uint u)).
Proof.
  induction u; intros seen;
    cbn [NilEmpty.string_of_uint JS.readDigits JS.digitValue Pos.of_uint Z.of_N];
    try reflexivity;
    try (change (10 * 0 + 0) with 0; rewrite IHu; destruct u; reflexivity);
    match goal with
    | |- JS.readDigits _ _ ?z = (_, Z.pos (Pos.of_uint_acc _ ?q)) =>
        change z with (Z.pos q)
    end;
    rewrite readDigits_acc; destruct u; reflexivity.
Qed.

Lemma readDigits_to_uint (p : positive) :
  JS.readDigits (NilEmpty.string_of_uint (Pos.to_uint p)) false 0
  = (true, Z.pos p).
Proof.
  rewrite readDigits_zero, DecimalPos.Unsigned.of_to.
  pose proof (DecimalPos.Unsigned.to_uint_nonnil p) as Hn.
  destruct (Pos.to_uint p); [contradiction | reflexivity ..].
Qed.

Ltac parseInt10_head :=
  unfold JS.parseInt10;
  match goal with
  | |- context [JS.trimStart ?s] => change (JS.trimStart s) with s
  end;
  cbv beta iota zeta.

Lemma parseInt10_digits (s : string) (n : Z) :
  JS.readDigits s false 0 = (true, n) -> JS.parseInt10 s = Some n.
Proof.
  destruct s as [|c r]; [discriminate|]. intros H.
  pose proof H as H'.
  destruct c as [[] [] [] [] [] [] [] []];
    cbn [JS.readDigits JS.digitValue] in H'; try discriminate H';
    parseInt10_head; rewrite H; f_equal; lia.
Qed.

Lemma parseInt10_String_of_number (n : Z) :
  JS.parseInt10 (JS.String_of_number n) = Some n.
Proof.
  unfold JS.String_of_number.
  pose proof (fun p => DecimalPos.Unsigned.to_uint_nonnil p) as Hn.
  destruct n as [|p|p]; cbn [Z.to_int NilZero.string_of_int].
  - reflexivity.
  - apply parseInt10_digits.
    unfold NilZero.string_of_uint.
    pose proof (readDigits_to_uint p) as H. specialize (Hn p).
    destruct (Pos.to_uint p); [contradiction | exact H ..].
  - parseInt10_head.
    unfold NilZero.string_of_uint.
    pose proof (readDigits_to_uint p) as H. specialize (Hn p).
    destruct (Pos.to_uint p); [contradiction | rewrite H; reflexivity ..].
Qed.

Lemma String_of_number_inj (n m : Z) :
  JS.String_of_number n = JS.String_of_number m -> n = m.
Proof.
  intros H. apply (f_equal JS.parseInt10) in H.
  rewrite !parseInt10_String_of_number in H. congruence.
Qed.

End Numbers.

(** *** [trim] *)

Section Trim.

Lemma trimStart_blank (s : string) : blank s = true -> JS.trimStart s = EmptyString.
Proof.
  induction s as [|c r IH]; simpl; [reflexivity|].
  intros H. apply andb_true_iff in H as [Hc Hr].
  rewrite Hc. auto.
Qed.

Lemma trim_blank (s : string) : blank s = true -> JS.trim s = EmptyString.
Proof.
  intros H. unfold JS.trim. now rewrite trimStart_blank.
Qed.

Lemma trimEnd_empty (s : string) : JS.trimEnd s = EmptyString -> blank s = true.
Proof.
  induction s as [|c r IH]; simpl; [reflexivity|].
  destruct (JS.trimEnd r); [|discriminate].
  destruct (JS.isWhiteSpace c); [auto | discriminate].
Qed.

Lemma blank_trimStart (s : string) : blank (JS.trimStart s) = true -> blank s = true.
Proof.
  induction s as [|c r IH]; simpl; [reflexivity|].
  destruct (JS.isWhiteSpace c) eqn:E; simpl; [auto|].
  rewrite E. discriminate.
Qed.

(** [trim] yields the empty string exactly on blank strings. *)
Lemma trim_empty_iff (s : string) : JS.trim s = EmptyString <-> blank s = true.
Proof.
  split; [|apply trim_blank].
  unfold JS.trim. intros H. apply blank_trimStart, trimEnd_empty, H.
Qed.

End Trim.

(** ** The change detector *)

Section ChangeDetector.

Context {Id : Type}.
Variable feature : Feature.t Id.
Variable formId : string.

Lemma filteredSteps_currentSteps (st : State) : filteredSteps st = currentSteps st.
Proof.
  unfold filteredSteps, currentSteps.
  apply filter_ext. intros s. apply truthy_length.
Qed.

Lemma isValid_truthy (st : State) :
  JS.truthy (isValid st)
  = JS.truthy (JS.trim (category st))
    && JS.truthy (JS.trim (name st))
    && JS.truthy (JS.trim (description st)).
Proof.
  unfold isValid, JS.logical_and.
  destruct (JS.trim (category st)), (JS.trim (name st)),
    (JS.trim (description st)); reflexivity.
Qed.

(** C5. [isValid] is truthy exactly when the trimmed category, name and
    description are all non-empty; a blank (empty or white-space only)
    field among the three makes it falsy whatever the other two hold; and
    its value is the same for every priority text, step list, error and
    counter. *)
Theorem isValid_iff_scalars_nonempty :
  forall st : State,
    (JS.truthy (isValid st) = true
     <-> JS.trim (category st) <> EmptyString
         /\ JS.trim (name st) <> EmptyString
         /\ JS.trim (description st) <> EmptyString)
    /\ (blank (category st) = true \/ blank (name st) = true
        \/ blank (description st) = true
        -> JS.truthy (isValid st) = false)
    /\ (forall p l e n,
          isValid (mkState (category st) (name st) (description st) p l e n)
          = isValid st).
Proof.
  intros st. split; [|split].
  - rewrite isValid_truthy, !andb_true_iff, !truthy_true_iff. tauto.
  - rewrite isValid_truthy.
    intros [H|[H|H]]; apply trim_blank in H; rewrite H; simpl;
      rewrite ?andb_false_r; reflexivity.
  - reflexivity.
Qed.

Lemma hasChanges_true_iff (st : State) :
  hasChanges feature st = true
  <-> JS.trim (category st) <> Feature.category feature
      \/ JS.trim (name st) <> Feature.name feature
      \/ JS.trim (description st) <> Feature.description feature
      \/ JS.parseInt10 (priority st) <> Some (Feature.priority feature)
      \/ currentSteps st <> Feature.steps feature.
Proof.
  unfold hasChanges.
  rewrite !orb_true_iff, !strict_neq_true_iff, number_strict_neq_true_iff,
    JSON_stringify_inj.
  tauto.
Qed.

Lemma hasChanges_false_iff (st : State) :
  hasChanges feature st = false
  <-> JS.trim (category st) = Feature.category feature
      /\ JS.trim (name st) = Feature.name feature
      /\ JS.trim (description st) = Feature.description feature
      /\ JS.parseInt10 (priority st) = Some (Feature.priority feature)
      /\ currentSteps st = Feature.steps feature.
Proof.
  unfold hasChanges.
  rewrite !orb_false_iff, !strict_neq_false_iff, JSON_stringify_inj.
  assert (Hn : JS.number_strict_neq (JS.parseInt10 (priority st))
                 (Some (Feature.priority feature)) = false
               <-> JS.parseInt10 (priority st) = Some (Feature.priority feature)).
  { destruct (JS.parseInt10 (priority st)) as [x|]; simpl.
    - rewrite negb_false_iff, Z.eqb_eq. split; congruence.
    - split; discriminate. }
  rewrite Hn. tauto.
Qed.

(** Scenario C: a priority text with no leading digits forces the dirty
    flag. *)
Lemma hasChanges_priority_NaN (st : State) :
  JS.parseInt10 (priority st) = None -> hasChanges feature st = true.
Proof.
  intros H. apply hasChanges_true_iff.
  right; right; right; left. rewrite H. discriminate.
Qed.


End ChangeDetector.

(** ** Opening the form: the initial rows and their normal form *)

Section Initialize.

Context {Id : Type}.
Variable feature : Feature.t Id.
Variable formId : string.

Lemma values_mapi_from (l : list string) :
  forall i,
    map Step.value (mapi_from (fun step i => Step.mk (stepId formId i) step) i l) = l.
Proof.
  induction l as [|x l IH]; intros i; simpl; [reflexivity | now rewrite IH].
Qed.

Lemma values_initialSteps :
  map Step.value (initialSteps feature formId)
  = match Feature.steps feature with
    | [] => [EmptyString]
    | l => l
    end.
Proof.
  unfold initialSteps, mapi.
  destruct (Feature.steps feature) as [|x l] eqn:E; [reflexivity|].
  cbn [List.length Nat.ltb Nat.leb]. apply values_mapi_from.
Qed.

Lemma normalize_values (l : list Step.t) :
  filter JS.truthy (map (fun s => JS.trim (Step.value s)) l)
  = filter JS.truthy (map JS.trim (map Step.value l)).
Proof.
  now rewrite map_map.
Qed.

Lemma currentSteps_initialState :
  currentSteps (initialState feature formId)
  = filter JS.truthy (map JS.trim (Feature.steps feature)).
Proof.
  unfold currentSteps, initialState. cbn [steps].
  rewrite normalize_values, values_initialSteps.
  destruct (Feature.steps feature); reflexivity.
Qed.

Lemma normal_form_fixed (l : list string) :
  filter JS.truthy (map JS.trim l) = l <-> Forall trimmedNonEmpty l.
Proof.
  split.
  - induction l as [|a r IH]; intros H; [constructor|].
    simpl in H. destruct (JS.truthy (JS.trim a)) eqn:E.
    + injection H as Ha Hr. constructor; [|auto].
      split; [exact Ha|]. rewrite Ha in E. now apply truthy_true_iff.
    + exfalso.
      pose proof (filter_length_le JS.truthy (map JS.trim r)) as Hle.
      rewrite H, length_map in Hle. simpl in Hle. lia.
  - induction 1 as [|a r [Ha Hne] _ IH]; [reflexivity|].
    simpl. rewrite Ha, IH.
    apply truthy_true_iff in Hne. now rewrite Hne.
Qed.

Lemma initial_normal_form :
  currentSteps (initialState feature formId) = Feature.steps feature
  <-> Forall trimmedNonEmpty (Feature.steps feature).
Proof.
  rewrite currentSteps_initialState. apply normal_form_fixed.
Qed.

(** C9. Opened on a feature without steps, the form holds exactly one row,
    with the empty string as value, and the untouched rows normalize to
    the empty sequence, in the payload ([filteredSteps]) and in the dirty
    check ([currentSteps]) alike. *)
Theorem no_steps_one_empty_row :
  Feature.steps feature = [] ->
  steps (initialState feature formId) = [Step.mk (stepId formId 0) EmptyString]
  /\ map Step.value (steps (initialState feature formId)) = [EmptyString]
  /\ filteredSteps (initialState feature formId) = []
  /\ currentSteps (initialState feature formId) = [].
Proof.
  intros H.
  assert (Hs : steps (initialState feature formId)
               = [Step.mk (stepId formId 0) EmptyString]).
  { unfold initialState, initialSteps. cbn [steps]. now rewrite H. }
  rewrite filteredSteps_currentSteps, currentSteps_initialState, Hs, H.
  repeat split; reflexivity.
Qed.

(** C4, as amended. For a non-empty sequence of steps each of which is its
    own trimmed form and non-empty, the rows the form opens with normalize
    back to that sequence. *)
Theorem initialize_normalize_roundtrip :
  Feature.steps feature <> [] ->
  Forall trimmedNonEmpty (Feature.steps feature) ->
  map Step.value (steps (initialState feature formId)) = Feature.steps feature
  /\ filteredSteps (initialState feature formId) = Feature.steps feature.
Proof.
  intros Hne Hall. split.
  - unfold initialState. cbn [steps]. rewrite values_initialSteps.
    destruct (Feature.steps feature); [contradiction | reflexivity].
  - rewrite filteredSteps_currentSteps. now apply initial_normal_form.
Qed.


End Initialize.

(** The form opened on a feature without steps. *)
Lemma no_steps_one_empty_row_witness :
  Feature.steps noStepsFeature = []
  /\ steps (initialState noStepsFeature ":r1:")
     = [Step.mk (stepId ":r1:" 0) EmptyString]
  /\ map Step.value (steps (initialState noStepsFeature ":r1:")) = [EmptyString]
  /\ filteredSteps (initialState noStepsFeature ":r1:") = []
  /\ currentSteps (initialState noStepsFeature ":r1:") = [].
Proof.
  split; [reflexivity|].
  apply (no_steps_one_empty_row noStepsFeature ":r1:"). reflexivity.
Defined.

(** Scenario A round-trips. *)
Lemma initialize_normalize_roundtrip_witness :
  Feature.steps loginFeature <> []
  /\ Forall trimmedNonEmpty (Feature.steps loginFeature)
  /\ map Step.value (steps (initialState loginFeature ":r1:"))
     = Feature.steps loginFeature
  /\ filteredSteps (initialState loginFeature ":r1:") = Feature.steps loginFeature.
Proof.
  assert (Hne : Feature.steps loginFeature <> []) by discriminate.
  assert (Hall : Forall trimmedNonEmpty (Feature.steps loginFeature)).
  { repeat constructor; discriminate. }
  split; [exact Hne|]. split; [exact Hall|].
  exact (initialize_normalize_roundtrip loginFeature ":r1:" Hne Hall).
Defined.

(** C4, as stated, fails: the single step [" click"] is not blank, yet the
    rows opened on it normalize to ["click"]. *)
Lemma roundtrip_fails_on_padded_step :
  Feature.steps paddedStepFeature <> []
  /\ Forall (fun s => blank s = false) (Feature.steps paddedStepFeature)
  /\ filteredSteps (initialState paddedStepFeature ":r1:") = ["click"]
  /\ filteredSteps (initialState paddedStepFeature ":r1:")
     <> Feature.steps paddedStepFeature.
Proof.
  split; [discriminate|]. split; [repeat constructor|].
  split; [reflexivity | discriminate].
Qed.

(** ** The step list manager *)

Section StepList.

Variable formId : string.

Lemma stepId_inj (i j : nat) : stepId formId i = stepId formId j -> i = j.
Proof.
  unfold stepId. intros H.
  apply append_cancel_l in H. apply (append_cancel_l "-step-") in H.
  apply String_of_number_inj in H. lia.
Qed.

Lemma setSteps_same (st : State) : setSteps (steps st) st = st.
Proof. destruct st; reflexivity. Qed.

Lemma ids_handleStepChange (id value : string) (st : State) :
  ids (steps (handleStepChange id value st)) = ids (steps st).
Proof.
  unfold handleStepChange, ids. cbn [steps setSteps].
  rewrite map_map. apply map_ext.
  intros step. destruct (String.eqb (Step.id step) id); reflexivity.
Qed.

Lemma nth_handleStepChange (id value : string) (st : State) (k : nat) :
  nth_error (steps (handleStepChange id value st)) k
  = option_map
      (fun step =>
         if String.eqb (Step.id step) id
         then Step.mk (Step.id step) value else step)
      (nth_error (steps st) k).
Proof.
  unfold handleStepChange. cbn [steps setSteps]. apply nth_error_map.
Qed.

Lemma handleStepChange_absent (id value : string) (st : State) :
  ~ In id (ids (steps st)) -> handleStepChange id value st = st.
Proof.
  intros H. unfold handleStepChange.
  set (f := fun step : Step.t =>
              if String.eqb (Step.id step) id
              then Step.mk (Step.id step) value else step).
  assert (Hmap : map f (steps st) = steps st).
  { rewrite <- (map_id (steps st)) at 2. apply map_ext_in.
    intros step Hin. unfold f.
    destruct (String.eqb_spec (Step.id step) id) as [E|E]; [|reflexivity].
    exfalso. apply H. rewrite <- E. now apply in_map. }
  rewrite Hmap. apply setSteps_same.
Qed.

Lemma filter_absent (id : string) (l : list Step.t) :
  ~ In id (ids l) ->
  filter (fun step => JS.strict_neq (Step.id step) id) l = l.
Proof.
  induction l as [|a r IH]; simpl; intros H; [reflexivity|].
  destruct (JS.strict_neq (Step.id a) id) eqn:E.
  - f_equal. apply IH. tauto.
  - apply strict_neq_false_iff in E. tauto.
Qed.

Lemma handleRemoveStep_absent (id : string) (st : State) :
  ~ In id (ids (steps st)) -> handleRemoveStep id st = st.
Proof.
  intros H. unfold handleRemoveStep.
  rewrite filter_absent by exact H. apply setSteps_same.
Qed.

Lemma ids_handleRemoveStep (id : string) (st : State) :
  ids (steps (handleRemoveStep id st))
  = filter (fun x => JS.strict_neq x id) (ids (steps st)).
Proof.
  unfold handleRemoveStep, ids. cbn [steps setSteps].
  induction (steps st) as [|a r IH]; simpl; [reflexivity|].
  destruct (JS.strict_neq (Step.id a) id); simpl; now rewrite IH.
Qed.

(** C8. [handleStepChange] keeps every id, the length and the order: row
    by row, a row whose id matches gets the new value and keeps its id, any
    other row is the same row; no other state cell changes.  With an id
    that no row carries, [handleStepChange] and [handleRemoveStep] give
    the state back unchanged. *)
Theorem step_change_frame :
  forall (id value : string) (st : State),
    ids (steps (handleStepChange id value st)) = ids (steps st)
    /\ List.length (steps (handleStepChange id value st)) = List.length (steps st)
    /\ (forall k,
          nth_error (steps (handleStepChange id value st)) k
          = option_map
              (fun step =>
                 if String.eqb (Step.id step) id
                 then Step.mk (Step.id step) value else step)
              (nth_error (steps st) k))
    /\ handleStepChange id value st = setSteps (steps (handleStepChange id value st)) st
    /\ (~ In id (ids (steps st)) ->
        handleStepChange id value st = st /\ handleRemoveStep id st = st).
Proof.
  intros id value st. repeat split.
  - apply ids_handleStepChange.
  - unfold handleStepChange. cbn [steps setSteps]. apply length_map.
  - intros k. apply nth_handleStepChange.
  - now apply handleStepChange_absent.
  - now apply handleRemoveStep_absent.
Qed.

End StepList.

(** A row id that is absent from the opened form. *)
Lemma step_change_frame_witness :
  ~ In "other" (ids (steps (initialState loginFeature ":r1:")))
  /\ handleStepChange "other" "x" (initialState loginFeature ":r1:")
     = initialState loginFeature ":r1:"
  /\ handleRemoveStep "other" (initialState loginFeature ":r1:")
     = initialState loginFeature ":r1:".
Proof.
  assert (H : ~ In "other" (ids (steps (initialState loginFeature ":r1:")))).
  { cbv. intros [H|[H|[H|[]]]]; discriminate H. }
  split; [exact H|].
  exact (proj2 (proj2 (proj2 (proj2
    (step_change_frame "other" "x" (initialState loginFeature ":r1:"))))) H).
Defined.

(** Scenario A: the second row is edited by its id. *)
Example scenario_A_edit :
  let st := handleStepChange (stepId ":r1:" 1) "type creds"
              (initialState loginFeature ":r1:") in
  filteredSteps st = ["click"; "type creds"; "submit"]
  /\ hasChanges loginFeature st = true
  /\ snd (mutateArgs loginFeature st)
     = mkUpdate "UI" "Login form" "desc" ["click"; "type creds"; "submit"] (Some 2%Z).
Proof.
  repeat split; reflexivity.
Qed.

(** ** Reachable states of the form *)

Section Reachable.

Context {Id : Type}.
Variable feature : Feature.t Id.
Variable formId : string.

Local Abbreviation wf := (rowsWellFormed formId).

Lemma ids_mapi_from (l : list string) :
  forall k,
    ids (mapi_from (fun step i => Step.mk (stepId formId i) step) k l)
    = map (stepId formId) (seq k (List.length l)).
Proof.
  induction l as [|x l IH]; intros k; simpl; [reflexivity | now rewrite IH].
Qed.

Lemma ids_initialSteps :
  ids (initialSteps feature formId)
  = map (stepId formId) (seq 0 (initialStepCounter feature)).
Proof.
  unfold initialSteps, initialStepCounter, mapi.
  destruct (Feature.steps feature) as [|x l]; [reflexivity|].
  cbn [Nat.ltb Nat.leb List.length]. apply ids_mapi_from.
Qed.

Lemma NoDup_map_stepId (l : list nat) : NoDup l -> NoDup (map (stepId formId) l).
Proof.
  induction 1 as [|a r Hin _ IH]; simpl; constructor; [|exact IH].
  intros H. apply in_map_iff in H as (b & Hb & Hr).
  apply stepId_inj in Hb. now subst.
Qed.

Lemma initial_wf : wf (initialState feature formId).
Proof.
  unfold rowsWellFormed, initialState. cbn [steps stepCounter].
  rewrite ids_initialSteps. repeat split.
  - apply NoDup_map_stepId, seq_NoDup.
  - apply Forall_forall. intros x H.
    apply in_map_iff in H as (i & Hi & Hin). apply in_seq in Hin.
    exists i. split; [lia | now symmetry].
  - unfold initialSteps, mapi.
    destruct (Feature.steps feature) as [|x l]; simpl; lia.
Qed.

Lemma length_filter_NoDup (id : string) (l : list Step.t) :
  NoDup (ids l) ->
  List.length l
  <= S (List.length (filter (fun step => JS.strict_neq (Step.id step) id) l)).
Proof.
  induction l as [|a r IH]; simpl; intros H; [lia|].
  apply NoDup_cons_iff in H as [Ha Hr].
  destruct (JS.strict_neq (Step.id a) id) eqn:E; simpl.
  - specialize (IH Hr). lia.
  - apply strict_neq_false_iff in E. subst id.
    rewrite filter_absent by exact Ha. lia.
Qed.

Lemma wf_handleAddStep (st : State) : wf st -> wf (handleAddStep formId st).
Proof.
  intros (Hnd & Hall & Hlen).
  unfold rowsWellFormed, handleAddStep, ids.
  cbn [steps stepCounter setSteps setStepCounter].
  rewrite map_app, length_app. simpl. repeat split; [| |lia].
  - apply NoDup_app; repeat split; [exact Hnd | repeat constructor; intros [] |].
    intros x Hx [Hy|[]]. subst x.
    rewrite Forall_forall in Hall. destruct (Hall _ Hx) as (i & Hi & E).
    apply stepId_inj in E. lia.
  - apply Forall_app. split.
    + eapply Forall_impl; [|exact Hall].
      intros x (i & Hi & E). exists i. split; [lia | exact E].
    + repeat constructor. exists (stepCounter st). split; [lia | reflexivity].
Qed.

Lemma wf_handleRemoveStep (id : string) (st : State) :
  removeRendered st = true -> wf st -> wf (handleRemoveStep id st).
Proof.
  intros Hr (Hnd & Hall & Hlen).
  unfold rowsWellFormed. rewrite ids_handleRemoveStep.
  unfold handleRemoveStep at 1 2. cbn [steps stepCounter setSteps].
  repeat split.
  - now apply NoDup_filter.
  - apply Forall_forall. intros x Hx. apply filter_In in Hx as [Hx _].
    rewrite Forall_forall in Hall. auto.
  - unfold removeRendered in Hr. apply Nat.ltb_lt in Hr.
    pose proof (length_filter_NoDup id (steps st) Hnd). lia.
Qed.

Lemma wf_handleStepChange (id value : string) (st : State) :
  wf st -> wf (handleStepChange id value st).
Proof.
  intros (Hnd & Hall & Hlen).
  unfold rowsWellFormed. rewrite ids_handleStepChange.
  unfold handleStepChange at 1 2. cbn [steps stepCounter setSteps].
  rewrite length_map. auto.
Qed.

Lemma wf_dispatch (s : Session) (e : Event) :
  wf (view s) -> wf (view (dispatch feature formId s e)).
Proof.
  intros H. destruct e; cbn [dispatch view onView]; try exact H.
  - now apply wf_handleAddStep.
  - destruct (removeRendered (view s)) eqn:E; [|exact H].
    now apply wf_handleRemoveStep.
  - now apply wf_handleStepChange.
  - destruct (submitDisabled feature s); exact H.
  - destruct (inFlight s); [exact H|]. destruct o; exact H.
Qed.

End Reachable.

(** ** Sessions: every sequence of events *)

Section Sessions.

Context {Id : Type}.
Variable feature : Feature.t Id.
Variable formId : string.

Local Abbreviation wf := (rowsWellFormed formId).
Local Abbreviation step := (dispatch feature formId).
Local Abbreviation exec := (run feature formId).

Lemma run_app (evs1 evs2 : list Event) :
  exec (evs1 ++ evs2) = fold_left step evs2 (exec evs1).
Proof.
  unfold run. apply fold_left_app.
Qed.

Lemma wf_fold (evs : list Event) :
  forall s : Session, wf (view s) -> wf (view (fold_left step evs s)).
Proof.
  induction evs as [|e evs IH]; intros s H; simpl; [exact H|].
  apply IH. now apply wf_dispatch.
Qed.

Lemma wf_run (evs : list Event) : wf (view (exec evs)).
Proof.
  unfold run. apply wf_fold. apply initial_wf.
Qed.

Lemma counter_dispatch (s : Session) (e : Event) :
  stepCounter (view s) <= stepCounter (view (step s e)).
Proof.
  destruct e; cbn [dispatch view onView]; try apply Nat.le_refl.
  - unfold handleAddStep. cbn [stepCounter setStepCounter]. lia.
  - destruct (removeRendered (view s)); apply Nat.le_refl.
  - destruct (submitDisabled feature s); apply Nat.le_refl.
  - destruct (inFlight s); [apply Nat.le_refl|]. destruct o; apply Nat.le_refl.
Qed.

Lemma counter_fold (evs : list Event) :
  forall s : Session,
    stepCounter (view s) <= stepCounter (view (fold_left step evs s)).
Proof.
  induction evs as [|e evs IH]; intros s; simpl; [apply Nat.le_refl|].
  etransitivity; [apply counter_dispatch | apply IH].
Qed.

Lemma click_remove_last (s : Session) (id : string) :
  List.length (steps (view s)) = 1 -> step s (ClickRemoveStep id) = s.
Proof.
  intros H. cbn [dispatch]. unfold removeRendered. now rewrite H.
Qed.

(** The handler alone carries no guard: the last row survives because its
    trash button is not rendered. *)
Remark handleRemoveStep_unguarded :
  steps (handleRemoveStep (stepId ":r1:" 0) (initialState noStepsFeature ":r1:")) = [].
Proof. reflexivity. Qed.

(** C3. On a form that shows one row, a click on remove changes nothing,
    whatever the id; and after any sequence of events the form shows at
    least one row. *)
Theorem last_row_is_kept :
  (forall (s : Session) (id : string),
      List.length (steps (view s)) = 1 -> step s (ClickRemoveStep id) = s)
  /\ (forall evs : list Event, 1 <= List.length (steps (view (exec evs)))).
Proof.
  split.
  - apply click_remove_last.
  - intros evs. apply (wf_run evs).
Qed.

(** C6. After any sequence of events the row ids are pairwise distinct;
    the id that [handleAddStep] appends next is absent from the rows of
    every earlier moment of the session, so no id is minted twice, removed
    or not; [handleStepChange] keeps the ids as they are and
    [handleRemoveStep] keeps a sub-list of them. *)
Theorem row_ids_unique :
  (forall evs : list Event, NoDup (ids (steps (view (exec evs)))))
  /\ (forall st : State,
        ids (steps (handleAddStep formId st))
        = (ids (steps st) ++ [stepId formId (stepCounter st)])%list)
  /\ (forall evs1 evs2 : list Event,
        ~ In (stepId formId (stepCounter (view (exec (evs1 ++ evs2)))))
             (ids (steps (view (exec evs1)))))
  /\ (forall (id value : string) (st : State),
        ids (steps (handleStepChange id value st)) = ids (steps st))
  /\ (forall (id : string) (st : State),
        ids (steps (handleRemoveStep id st))
        = filter (fun x => JS.strict_neq x id) (ids (steps st))).
Proof.
  split; [|split; [|split; [|split]]].
  - intros evs. apply (wf_run evs).
  - intros st. unfold handleAddStep, ids. cbn [steps setSteps setStepCounter].
    now rewrite map_app.
  - intros evs1 evs2 Hin.
    destruct (wf_run evs1) as (_ & Hall & _).
    rewrite Forall_forall in Hall. destruct (Hall _ Hin) as (i & Hi & E).
    apply stepId_inj in E.
    pose proof (counter_fold evs2 (exec evs1)) as Hle.
    rewrite <- run_app in Hle. lia.
  - intros id value st. apply ids_handleStepChange.
  - intros id st. apply ids_handleRemoveStep.
Qed.

End Sessions.

(** ** The submit coordinator *)

Section Submit.

Context {Id : Type}.
Variable feature : Feature.t Id.
Variable formId : string.

Local Abbreviation step := (dispatch feature formId).
Local Abbreviation exec := (run feature formId).







Lemma submit_keeps_buffer (s : @Session Id) :
  buffer (view (step s SubmitForm)) = buffer (view s)
  /\ notified (step s SubmitForm) = notified s.
Proof.
  cbn [dispatch]. destruct (submitDisabled feature s); split; reflexivity.
Qed.

(** C7. When a pending mutation is rejected, the error cell holds the
    message of the thrown [Error], or the text "Failed to update feature"
    when the thrown value is not an [Error]; the scalar fields and the rows
    are untouched, no callback is invoked, no mutation is called, and the
    mutation is no longer in flight.  The submit that started it, like
    every submit, had left the scalar fields, the rows and the callbacks
    alone as well. *)
Theorem rejected_mutation_keeps_buffer :
  forall (s : Session) (err : Thrown),
    inFlight s <> 0 ->
    error (view (step s (Settle (Rejected err))))
    = Some match err with
           | ErrorInstance message => message
           | NotAnError _ => "Failed to update feature"
           end
    /\ buffer (view (step s (Settle (Rejected err)))) = buffer (view s)
    /\ notified (step s (Settle (Rejected err))) = notified s
    /\ calls (step s (Settle (Rejected err))) = calls s
    /\ S (inFlight (step s (Settle (Rejected err)))) = inFlight s
    /\ (forall s0 : Session,
          buffer (view (step s0 SubmitForm)) = buffer (view s0)
          /\ notified (step s0 SubmitForm) = notified s0).
Proof.
  intros s err H.
  cbn [dispatch]. destruct (inFlight s) as [|n] eqn:E; [contradiction|].
  cbn [handleSubmit_settled view calls notified inFlight]. rewrite E.
  repeat split; try (destruct err; reflexivity);
    try apply submit_keeps_buffer.
  lia.
Qed.

End Submit.

(** ** Concrete sessions *)

(** The single row of a form opened without steps cannot be removed. *)
Lemma last_row_is_kept_witness :
  List.length (steps (view (initialSession noStepsFeature ":r1:"))) = 1
  /\ dispatch noStepsFeature ":r1:" (initialSession noStepsFeature ":r1:")
       (ClickRemoveStep (stepId ":r1:" 0))
     = initialSession noStepsFeature ":r1:".
Proof.
  split; [reflexivity|].
  apply (proj1 (last_row_is_kept noStepsFeature ":r1:")). reflexivity.
Defined.


(** The mutation failure scenario: the call rejects with "network error". *)
Lemma rejected_mutation_keeps_buffer_witness :
  inFlight submittedSession <> 0
  /\ error (view (dispatch loginFeature ":r1:" submittedSession
                    (Settle (Rejected (ErrorInstance "network error")))))
     = Some "network error"
  /\ buffer (view (dispatch loginFeature ":r1:" submittedSession
                     (Settle (Rejected (ErrorInstance "network error")))))
     = buffer (view submittedSession)
  /\ notified (dispatch loginFeature ":r1:" submittedSession
                 (Settle (Rejected (ErrorInstance "network error"))))
     = notified submittedSession.
Proof.
  assert (H : inFlight submittedSession <> 0) by discriminate.
  split; [exact H|].
  destruct (rejected_mutation_keeps_buffer loginFeature ":r1:" submittedSession
              (ErrorInstance "network error") H) as (He & Hb & Hn & _).
  split; [exact He|]. split; [exact Hb | exact Hn].
Defined.

(** A white-space only category makes the form invalid. *)
Lemma isValid_iff_scalars_nonempty_witness :
  blank (category blankCategoryState) = true
  /\ JS.truthy (isValid blankCategoryState) = false.
Proof.
  split; [reflexivity|].
  apply (proj1 (proj2 (isValid_iff_scalars_nonempty blankCategoryState))).
  left. reflexivity.
Defined.


(** Scenario B: a row added and left empty is no change. *)
Example scenario_B_added_empty_row :
  hasChanges loginFeature
    (handleAddStep ":r1:" (initialState loginFeature ":r1:")) = false
  /\ filteredSteps (handleAddStep ":r1:" (initialState loginFeature ":r1:"))
     = Feature.steps loginFeature.
Proof.
  split; reflexivity.
Qed.

(** Scenario C: the priority text "abc" parses to [NaN]; the form is dirty
    and still valid, and the payload carries the [NaN]. *)
Example scenario_C_priority_text :
  let st := setPriority "abc" (initialState loginFeature ":r1:") in
  hasChanges loginFeature st = true
  /\ JS.truthy (isValid st) = true
  /\ u_priority (snd (mutateArgs loginFeature st)) = None.
Proof.
  repeat split; reflexivity.
Qed.

(** The mutation failure scenario, then a dismissal of the error. *)
Example scenario_failure_then_dismiss :
  let failed := dispatch loginFeature ":r1:" submittedSession
                  (Settle (Rejected (ErrorInstance "network error"))) in
  let dismissed := dispatch loginFeature ":r1:" failed DismissError in
  error (view failed) = Some "network error"
  /\ error (view dismissed) = None
  /\ buffer (view dismissed) = buffer (view submittedSession)
  /\ submitDisabled loginFeature dismissed = false.
Proof.
  repeat split; reflexivity.
Qed.

(** ** Further properties of the form *)

(** *** [trim] is idempotent *)

Section TrimIdempotent.

Lemma trimEnd_idem (s : string) : JS.trimEnd (JS.trimEnd s) = JS.trimEnd s.
Proof.
  induction s as [|c r IH]; [reflexivity|].
  cbn [JS.trimEnd]. destruct (JS.trimEnd r) as [|a t] eqn:E.
  - destruct (JS.isWhiteSpace c) eqn:W; [reflexivity|].
    cbn [JS.trimEnd]. now rewrite W.
  - change (JS.trimEnd (String c (String a t)))
      with (match JS.trimEnd (String a t) with
            | EmptyString =>
                if JS.isWhiteSpace c then EmptyString else String c EmptyString
            | String x y => String c (String x y)
            end).
    now rewrite IH.
Qed.

Lemma headNonWhite_trimStart (s : string) : headNonWhite (JS.trimStart s) = true.
Proof.
  induction s as [|c r IH]; [reflexivity|].
  cbn [JS.trimStart]. destruct (JS.isWhiteSpace c) eqn:W; [exact IH|].
  cbn [headNonWhite]. now rewrite W.
Qed.

Lemma headNonWhite_trimEnd (s : string) :
  headNonWhite s = true -> headNonWhite (JS.trimEnd s) = true.
Proof.
  destruct s as [|c r]; [reflexivity|].
  cbn [headNonWhite JS.trimEnd]. intros H.
  destruct (JS.trimEnd r); [|exact H].
  destruct (JS.isWhiteSpace c) eqn:W; [reflexivity|].
  cbn [headNonWhite]. now rewrite W.
Qed.

Lemma trimStart_headNonWhite (s : string) :
  headNonWhite s = true -> JS.trimStart s = s.
Proof.
  destruct s as [|c r]; [reflexivity|].
  cbn [headNonWhite JS.trimStart]. intros H.
  apply negb_true_iff in H. now rewrite H.
Qed.

Lemma trim_idem (s : string) : JS.trim (JS.trim s) = JS.trim s.
Proof.
  unfold JS.trim.
  rewrite (trimStart_headNonWhite (JS.trimEnd (JS.trimStart s))).
  - apply trimEnd_idem.
  - apply headNonWhite_trimEnd, headNonWhite_trimStart.
Qed.

Lemma trimmedNonEmpty_trim (s : string) :
  JS.truthy (JS.trim s) = true -> trimmedNonEmpty (JS.trim s).
Proof.
  intros H. split; [apply trim_idem | now apply truthy_true_iff].
Qed.

End TrimIdempotent.

(** *** The payload of [handleSubmit] *)

Section Payload.

Context {Id : Type}.
Variable feature : Feature.t Id.
Variable formId : string.

Lemma payload_is_snapshot_iff (st : State) :
  snd (mutateArgs feature st) = snapshotUpdate feature
  <-> hasChanges feature st = false.
Proof.
  rewrite hasChanges_false_iff. unfold mutateArgs, snapshotUpdate. cbn [snd].
  rewrite filteredSteps_currentSteps. split.
  - intros H. injection H as Hc Hn Hd Hs Hp. auto.
  - intros (Hc & Hn & Hd & Hp & Hs). now rewrite Hc, Hn, Hd, Hp, Hs.
Qed.

Lemma filteredSteps_trimmedNonEmpty (st : State) :
  Forall trimmedNonEmpty (filteredSteps st).
Proof.
  unfold filteredSteps. apply Forall_forall. intros x Hx.
  apply filter_In in Hx as [Hin Hlen]. rewrite truthy_length in Hlen.
  apply in_map_iff in Hin as (r & <- & _).
  now apply trimmedNonEmpty_trim.
Qed.

Lemma mutateArgs_well_formed (s : @Session Id) :
  submitDisabled feature s = false ->
  callWellFormed feature (mutateArgs feature (view s)).
Proof.
  unfold submitDisabled. rewrite !orb_false_iff, !negb_false_iff.
  intros [[Hv Hc] _].
  rewrite isValid_truthy, !andb_true_iff in Hv. destruct Hv as [[H1 H2] H3].
  unfold callWellFormed. cbn [fst].
  split; [reflexivity|].
  split; [now apply trimmedNonEmpty_trim|].
  split; [now apply trimmedNonEmpty_trim|].
  split; [now apply trimmedNonEmpty_trim|].
  split; [apply filteredSteps_trimmedNonEmpty|].
  intros E. apply payload_is_snapshot_iff in E. congruence.
Qed.

Lemma calls_dispatch (s : @Session Id) (e : Event) :
  Forall (callWellFormed feature) (calls s) ->
  Forall (callWellFormed feature) (calls (dispatch feature formId s e)).
Proof.
  intros H. destruct e; cbn [dispatch calls onView]; try exact H.
  - destruct (removeRendered (view s)); exact H.
  - destruct (submitDisabled feature s) eqn:E; [exact H|].
    cbn [handleSubmit_call calls]. apply Forall_app. split; [exact H|].
    constructor; [now apply mutateArgs_well_formed | constructor].
  - destruct (inFlight s); [exact H|]. destruct o; exact H.
Qed.

Lemma calls_fold (evs : list Event) :
  forall s : @Session Id,
    Forall (callWellFormed feature) (calls s) ->
    Forall (callWellFormed feature)
      (calls (fold_left (dispatch feature formId) evs s)).
Proof.
  induction evs as [|e evs IH]; intros s H; simpl; [exact H|].
  apply IH. now apply calls_dispatch.
Qed.

(** X1. Whatever the user does, every argument handed to [mutateAsync]
    names the feature of the form, carries a category, a name and a
    description that are trimmed and non-empty, carries steps that are each
    trimmed and non-empty, and differs from the snapshot in at least one
    field. *)
Theorem every_call_is_a_real_change :
  forall evs : list Event,
    Forall (callWellFormed feature) (calls (run feature formId evs)).
Proof.
  intros evs. unfold run. apply calls_fold. constructor.
Qed.

(** X2. The dirty check is the payload check: [hasChanges] is false
    exactly when the update that a submit would send equals the snapshot,
    field by field. *)
Theorem clean_iff_payload_is_snapshot :
  forall st : State,
    hasChanges feature st = false
    <-> snd (mutateArgs feature st) = snapshotUpdate feature.
Proof.
  intros st. symmetry. apply payload_is_snapshot_iff.
Qed.

(** X3. White space around the category, the name or the description is
    invisible: trimming such a field in the buffer changes neither
    [isValid], nor [hasChanges], nor the argument of the mutation. *)
Theorem scalar_padding_is_ignored :
  forall st : State,
    (isValid (setCategory (JS.trim (category st)) st) = isValid st
     /\ hasChanges feature (setCategory (JS.trim (category st)) st)
        = hasChanges feature st
     /\ mutateArgs feature (setCategory (JS.trim (category st)) st)
        = mutateArgs feature st)
    /\ (isValid (setName (JS.trim (name st)) st) = isValid st
        /\ hasChanges feature (setName (JS.trim (name st)) st)
           = hasChanges feature st
        /\ mutateArgs feature (setName (JS.trim (name st)) st)
           = mutateArgs feature st)
    /\ (isValid (setDescription (JS.trim (description st)) st) = isValid st
        /\ hasChanges feature (setDescription (JS.trim (description st)) st)
           = hasChanges feature st
        /\ mutateArgs feature (setDescription (JS.trim (description st)) st)
           = mutateArgs feature st).
Proof.
  intros st.
  unfold isValid, hasChanges, mutateArgs, filteredSteps, currentSteps.
  cbn [category name description priority steps
       setCategory setName setDescription].
  rewrite !trim_idem. repeat split; reflexivity.
Qed.


End Payload.

(** *** Rows and what the payload sees of them *)

Section Rows.

Context {Id : Type}.
Variable feature : Feature.t Id.
Variable formId : string.

Lemma hasChanges_same_buffer (st st' : State) :
  category st' = category st ->
  name st' = name st ->
  description st' = description st ->
  priority st' = priority st ->
  currentSteps st' = currentSteps st ->
  hasChanges feature st' = hasChanges feature st
  /\ mutateArgs feature st' = mutateArgs feature st
  /\ isValid st' = isValid st.
Proof.
  intros Hc Hn Hd Hp Hs.
  unfold hasChanges, mutateArgs, isValid.
  rewrite !filteredSteps_currentSteps, Hc, Hn, Hd, Hp, Hs.
  repeat split; reflexivity.
Qed.

Lemma currentSteps_handleAddStep (st : State) :
  currentSteps (handleAddStep formId st) = currentSteps st.
Proof.
  unfold currentSteps, handleAddStep. cbn [steps setSteps setStepCounter].
  rewrite map_app, filter_app. cbn [map filter Step.value].
  change (JS.truthy (JS.trim EmptyString)) with false.
  apply app_nil_r.
Qed.

Lemma currentSteps_blank_is_removed (id value : string) (st : State) :
  blank value = true ->
  currentSteps (handleStepChange id value st)
  = currentSteps (handleRemoveStep id st).
Proof.
  intros Hb. apply trim_blank in Hb.
  unfold currentSteps, handleStepChange, handleRemoveStep, JS.strict_neq.
  cbn [steps setSteps].
  induction (steps st) as [|a r IH]; [reflexivity|].
  cbn [map filter].
  destruct (String.eqb (Step.id a) id); cbn [negb Step.value map filter].
  - rewrite Hb. cbn [JS.truthy]. exact IH.
  - destruct (JS.truthy (JS.trim (Step.value a))); now rewrite IH.
Qed.

(** X5. A row added and left empty is invisible to the rest of the form:
    the normalized steps, [hasChanges], [isValid] and the argument of the
    mutation are what they were before the click on "Add Step". *)
Theorem added_empty_row_is_invisible :
  forall st : State,
    currentSteps (handleAddStep formId st) = currentSteps st
    /\ filteredSteps (handleAddStep formId st) = filteredSteps st
    /\ hasChanges feature (handleAddStep formId st) = hasChanges feature st
    /\ mutateArgs feature (handleAddStep formId st) = mutateArgs feature st
    /\ isValid (handleAddStep formId st) = isValid st.
Proof.
  intros st.
  pose proof (currentSteps_handleAddStep st) as Hs.
  split; [exact Hs|].
  split; [now rewrite !filteredSteps_currentSteps|].
  now apply hasChanges_same_buffer.
Qed.

(** X6. Blanking a row is, for everything that is sent or compared, the
    same as removing it: with a value that is empty or white space only,
    [handleStepChange] and [handleRemoveStep] on the same id give the same
    normalized steps, the same [hasChanges] and the same mutation
    argument. *)
Theorem blanked_row_counts_as_removed :
  forall (id value : string) (st : State),
    blank value = true ->
    filteredSteps (handleStepChange id value st)
    = filteredSteps (handleRemoveStep id st)
    /\ hasChanges feature (handleStepChange id value st)
       = hasChanges feature (handleRemoveStep id st)
    /\ mutateArgs feature (handleStepChange id value st)
       = mutateArgs feature (handleRemoveStep id st).
Proof.
  intros id value st Hb.
  pose proof (currentSteps_blank_is_removed id value st Hb) as Hs.
  split; [now rewrite !filteredSteps_currentSteps|].
  destruct (hasChanges_same_buffer (handleRemoveStep id st)
              (handleStepChange id value st)) as (H1 & H2 & _);
    try reflexivity; auto.
Qed.

End Rows.

(** Blanking the second row of scenario A. *)
Lemma blanked_row_counts_as_removed_witness :
  blank "  " = true
  /\ filteredSteps (handleStepChange (stepId ":r1:" 1) "  "
                      (initialState loginFeature ":r1:"))
     = filteredSteps (handleRemoveStep (stepId ":r1:" 1)
                        (initialState loginFeature ":r1:")).
Proof.
  split; [reflexivity|].
  apply (blanked_row_counts_as_removed loginFeature (stepId ":r1:" 1) "  "
           (initialState loginFeature ":r1:")).
  reflexivity.
Defined.


(** *** Rows are addressed one at a time *)

Section OneRow.

Context {Id : Type}.
Variable feature : Feature.t Id.
Variable formId : string.

Lemma filter_removes_nth (l : list Step.t) :
  forall (k : nat) (r : Step.t),
    NoDup (ids l) ->
    nth_error l k = Some r ->
    filter (fun step => JS.strict_neq (Step.id step) (Step.id r)) l
    = (firstn k l ++ skipn (S k) l)%list.
Proof.
  induction l as [|a l IH]; intros [|k] r Hnd Hk; try discriminate Hk.
  - injection Hk as ->. apply NoDup_cons_iff in Hnd as [Ha _].
    cbn [filter firstn skipn app].
    unfold JS.strict_neq at 1. rewrite String.eqb_refl. cbn [negb].
    now apply filter_absent.
  - apply NoDup_cons_iff in Hnd as [Ha Hnd]. cbn [nth_error] in Hk.
    cbn [filter firstn skipn app].
    destruct (JS.strict_neq (Step.id a) (Step.id r)) eqn:E.
    + f_equal. now apply IH.
    + apply strict_neq_false_iff in E. exfalso. apply Ha.
      rewrite E. apply in_map. eapply nth_error_In, Hk.
Qed.

Lemma map_changes_nth (value : string) (l : list Step.t) :
  forall (k : nat) (r : Step.t),
    NoDup (ids l) ->
    nth_error l k = Some r ->
    map (fun step =>
           if String.eqb (Step.id step) (Step.id r)
           then Step.mk (Step.id step) value else step) l
    = (firstn k l ++ Step.mk (Step.id r) value :: skipn (S k) l)%list.
Proof.
  induction l as [|a l IH]; intros [|k] r Hnd Hk; try discriminate Hk.
  - injection Hk as ->. apply NoDup_cons_iff in Hnd as [Ha _].
    cbn [map firstn skipn app]. rewrite String.eqb_refl. f_equal.
    rewrite <- (map_id l) at 2. apply map_ext_in. intros x Hx.
    destruct (String.eqb_spec (Step.id x) (Step.id r)) as [E|E]; [|reflexivity].
    exfalso. apply Ha. rewrite <- E. now apply in_map.
  - apply NoDup_cons_iff in Hnd as [Ha Hnd]. cbn [nth_error] in Hk.
    cbn [map firstn skipn app].
    destruct (String.eqb_spec (Step.id a) (Step.id r)) as [E|E].
    + exfalso. apply Ha. rewrite E. apply in_map. eapply nth_error_In, Hk.
    + f_equal. now apply IH.
Qed.

(** X7. At any moment of a session that shows more than one row, a click
    on the trash button of the row at position [k] removes that row and no
    other: the rows before and after it stay, in order, and the counter is
    not touched. *)
Theorem remove_click_removes_that_row :
  forall (evs : list Event) (k : nat) (r : Step.t),
    nth_error (steps (view (run feature formId evs))) k = Some r ->
    1 < List.length (steps (view (run feature formId evs))) ->
    steps (view (dispatch feature formId (run feature formId evs)
                   (ClickRemoveStep (Step.id r))))
    = (firstn k (steps (view (run feature formId evs)))
       ++ skipn (S k) (steps (view (run feature formId evs))))%list
    /\ stepCounter (view (dispatch feature formId (run feature formId evs)
                            (ClickRemoveStep (Step.id r))))
       = stepCounter (view (run feature formId evs)).
Proof.
  intros evs k r Hk Hlen.
  destruct (wf_run feature formId evs) as (Hnd & _ & _).
  cbn [dispatch]. unfold removeRendered.
  apply Nat.ltb_lt in Hlen. rewrite Hlen.
  cbn [view onView]. unfold handleRemoveStep. cbn [steps stepCounter setSteps].
  split; [|reflexivity]. now apply filter_removes_nth.
Qed.

(** X8. At any moment of a session, typing [value] in the input of the
    row at position [k] puts [value] in that row and leaves every other
    row, and the id of that row, as they were. *)
Theorem typing_changes_that_row :
  forall (evs : list Event) (k : nat) (r : Step.t) (value : string),
    nth_error (steps (view (run feature formId evs))) k = Some r ->
    steps (view (dispatch feature formId (run feature formId evs)
                   (ChangeStep (Step.id r) value)))
    = (firstn k (steps (view (run feature formId evs)))
       ++ Step.mk (Step.id r) value
          :: skipn (S k) (steps (view (run feature formId evs))))%list.
Proof.
  intros evs k r value Hk.
  destruct (wf_run feature formId evs) as (Hnd & _ & _).
  cbn [dispatch view onView]. unfold handleStepChange. cbn [steps setSteps].
  now apply map_changes_nth.
Qed.

(** X9. Adding a row and removing it again gives the rows back as they
    were, at any moment of a session; only the counter has moved on, so the
    id of the removed row is not handed out again. *)
Theorem add_then_remove_restores_rows :
  forall evs : list Event,
    steps (handleRemoveStep
             (stepId formId (stepCounter (view (run feature formId evs))))
             (handleAddStep formId (view (run feature formId evs))))
    = steps (view (run feature formId evs))
    /\ stepCounter (handleRemoveStep
                      (stepId formId (stepCounter (view (run feature formId evs))))
                      (handleAddStep formId (view (run feature formId evs))))
       = S (stepCounter (view (run feature formId evs))).
Proof.
  intros evs.
  destruct (wf_run feature formId evs) as (_ & Hall & _).
  set (st := view (run feature formId evs)) in *.
  unfold handleRemoveStep, handleAddStep.
  cbn [steps stepCounter setSteps setStepCounter].
  split; [|apply Nat.add_1_r].
  rewrite filter_app. cbn [filter Step.id].
  unfold JS.strict_neq at 2. rewrite String.eqb_refl. cbn [negb].
  rewrite app_nil_r. apply filter_absent.
  intros Hin. rewrite Forall_forall in Hall.
  destruct (Hall _ Hin) as (i & Hi & E). apply stepId_inj in E. lia.
Qed.

End OneRow.

(** The middle row of scenario A is removed, then edited. *)
Lemma remove_click_removes_that_row_witness :
  nth_error (steps (view (run loginFeature ":r1:" []))) 1
  = Some (Step.mk ":r1:-step-1" "type")
  /\ 1 < List.length (steps (view (run loginFeature ":r1:" [])))
  /\ steps (view (dispatch loginFeature ":r1:" (run loginFeature ":r1:" [])
                    (ClickRemoveStep ":r1:-step-1")))
     = [Step.mk ":r1:-step-0" "click"; Step.mk ":r1:-step-2" "submit"].
Proof.
  assert (Hk : nth_error (steps (view (run loginFeature ":r1:" []))) 1
               = Some (Step.mk ":r1:-step-1" "type")) by reflexivity.
  assert (Hl : 1 < List.length (steps (view (run loginFeature ":r1:" []))))
    by (cbv; lia).
  split; [exact Hk|]. split; [exact Hl|].
  exact (proj1 (remove_click_removes_that_row loginFeature ":r1:" [] 1
                  (Step.mk ":r1:-step-1" "type") Hk Hl)).
Defined.

Lemma typing_changes_that_row_witness :
  nth_error (steps (view (run loginFeature ":r1:" []))) 1
  = Some (Step.mk ":r1:-step-1" "type")
  /\ steps (view (dispatch loginFeature ":r1:" (run loginFeature ":r1:" [])
                    (ChangeStep ":r1:-step-1" "type creds")))
     = [Step.mk ":r1:-step-0" "click"; Step.mk ":r1:-step-1" "type creds";
        Step.mk ":r1:-step-2" "submit"].
Proof.
  assert (Hk : nth_error (steps (view (run loginFeature ":r1:" []))) 1
               = Some (Step.mk ":r1:-step-1" "type")) by reflexivity.
  split; [exact Hk|].
  exact (typing_changes_that_row loginFeature ":r1:" [] 1
           (Step.mk ":r1:-step-1" "type") "type creds" Hk).
Defined.

(** *** Ids over a whole session *)

Section IdsOverTime.

Context {Id : Type}.
Variable feature : Feature.t Id.
Variable formId : string.

Lemma absent_dispatch (i : nat) (s : @Session Id) (e : Event) :
  i < stepCounter (view s) ->
  ~ In (stepId formId i) (ids (steps (view s))) ->
  ~ In (stepId formId i) (ids (steps (view (dispatch feature formId s e)))).
Proof.
  intros Hi H. destruct e; cbn [dispatch view onView]; try exact H.
  - unfold handleAddStep, ids. cbn [steps setSteps setStepCounter].
    rewrite map_app, in_app_iff. intros [Hin|[Hin|[]]]; [now apply H|].
    cbn [Step.id] in Hin. apply stepId_inj in Hin. lia.
  - destruct (removeRendered (view s)); [|exact H].
    cbn [view onView]. rewrite ids_handleRemoveStep.
    intros Hin. apply filter_In in Hin as [Hin _]. now apply H.
  - now rewrite ids_handleStepChange.
  - destruct (submitDisabled feature s); exact H.
  - destruct (inFlight s); [exact H|]. destruct o; exact H.
Qed.

Lemma absent_fold (i : nat) (evs : list Event) :
  forall s : @Session Id,
    i < stepCounter (view s) ->
    ~ In (stepId formId i) (ids (steps (view s))) ->
    ~ In (stepId formId i)
        (ids (steps (view (fold_left (dispatch feature formId) evs s)))).
Proof.
  induction evs as [|e evs IH]; intros s Hi H; simpl; [exact H|].
  apply IH.
  - eapply Nat.lt_le_trans; [exact Hi | apply counter_dispatch].
  - now apply absent_dispatch.
Qed.

(** X10. An id that was on a row and is gone stays gone: once a row has
    been removed, no later row of the session gets its id, whatever is
    added or removed afterwards. *)
Theorem removed_id_never_returns :
  forall (evs0 evs1 evs2 : list Event) (id : string),
    In id (ids (steps (view (run feature formId evs0)))) ->
    ~ In id (ids (steps (view (run feature formId (evs0 ++ evs1))))) ->
    ~ In id (ids (steps (view (run feature formId (evs0 ++ evs1 ++ evs2))))).
Proof.
  intros evs0 evs1 evs2 id Hin Hout.
  destruct (wf_run feature formId evs0) as (_ & Hall & _).
  rewrite Forall_forall in Hall. destruct (Hall _ Hin) as (i & Hi & ->).
  rewrite app_assoc, run_app. apply absent_fold; [|exact Hout].
  eapply Nat.lt_le_trans; [exact Hi|].
  rewrite run_app. apply counter_fold.
Qed.

End IdsOverTime.

Lemma removed_id_never_returns_witness :
  In ":r1:-step-1" (ids (steps (view (run loginFeature ":r1:" []))))
  /\ ~ In ":r1:-step-1"
       (ids (steps (view (run loginFeature ":r1:"
                            ([] ++ [ClickRemoveStep ":r1:-step-1"])))))
  /\ ~ In ":r1:-step-1"
       (ids (steps (view (run loginFeature ":r1:"
                            ([] ++ [ClickRemoveStep ":r1:-step-1"]
                                ++ [ClickAddStep; ClickAddStep]))))).
Proof.
  assert (Hin : In ":r1:-step-1" (ids (steps (view (run loginFeature ":r1:" []))))).
  { cbv. right. left. reflexivity. }
  assert (Hout : ~ In ":r1:-step-1"
                   (ids (steps (view (run loginFeature ":r1:"
                                        ([] ++ [ClickRemoveStep ":r1:-step-1"])))))).
  { cbv. intros [H|[H|[]]]; discriminate H. }
  split; [exact Hin|]. split; [exact Hout|].
  exact (removed_id_never_returns loginFeature ":r1:" []
           [ClickRemoveStep ":r1:-step-1"] [ClickAddStep; ClickAddStep]
           ":r1:-step-1" Hin Hout).
Defined.

(** *** Callbacks, the error cell and retries *)

Section Outcomes.

Context {Id : Type}.
Variable feature : Feature.t Id.
Variable formId : string.

Local Abbreviation step := (dispatch feature formId).
Local Abbreviation exec := (run feature formId).

Lemma count_app {A : Type} (p : A -> bool) (l1 l2 : list A) :
  count p (l1 ++ l2) = count p l1 + count p l2.
Proof.
  unfold count. now rewrite filter_app, length_app.
Qed.

Lemma saved_dispatch (s : @Session Id) (e : Event) :
  count isOnSaved (notified s) + inFlight s <= List.length (calls s) ->
  count isOnSaved (notified (step s e)) + inFlight (step s e)
  <= List.length (calls (step s e)).
Proof.
  intros H.
  destruct e; cbn [dispatch notified inFlight calls onView]; try exact H.
  - destruct (removeRendered (view s)); exact H.
  - destruct (submitDisabled feature s); [exact H|].
    cbn [handleSubmit_call notified inFlight calls].
    rewrite length_app. simpl. lia.
  - destruct (inFlight s) as [|n] eqn:E; [now rewrite E|].
    destruct o; cbn [handleSubmit_settled notified inFlight calls];
      rewrite ?count_app, E; cbv [count] in *; simpl; lia.
  - rewrite count_app. cbv [count] in *. simpl. lia.
Qed.

Lemma saved_fold (evs : list Event) :
  forall s : @Session Id,
    count isOnSaved (notified s) + inFlight s <= List.length (calls s) ->
    count isOnSaved (notified (fold_left step evs s))
    + inFlight (fold_left step evs s)
    <= List.length (calls (fold_left step evs s)).
Proof.
  induction evs as [|e evs IH]; intros s H; simpl; [exact H|].
  apply IH. now apply saved_dispatch.
Qed.

Lemma closed_dispatch (s : @Session Id) (e : Event) :
  count isOnClose (notified (step s e))
  = count isOnClose (notified s) + (if isClickClose e then 1 else 0).
Proof.
  destruct e; cbn [dispatch notified onView isClickClose];
    try apply plus_n_O.
  - destruct (removeRendered (view s)); apply plus_n_O.
  - destruct (submitDisabled feature s); apply plus_n_O.
  - destruct (inFlight s); [apply plus_n_O|].
    destruct o; cbn [handleSubmit_settled notified]; rewrite ?count_app;
      reflexivity || apply plus_n_O.
  - rewrite count_app. reflexivity.
Qed.

Lemma closed_fold (evs : list Event) :
  forall s : @Session Id,
    count isOnClose (notified (fold_left step evs s))
    = count isOnClose (notified s) + count isClickClose evs.
Proof.
  induction evs as [|e evs IH]; intros s; simpl; [apply plus_n_O|].
  rewrite IH, closed_dispatch. unfold count at 4. cbn [filter].
  destruct (isClickClose e); cbn [List.length]; unfold count; lia.
Qed.

(** X11. [onSaved] is called only for mutations that were called and have
    settled: after any sequence of events, the calls of [onSaved] plus the
    mutations still in flight are at most the mutations called. *)
Theorem saved_only_after_a_call :
  forall evs : list Event,
    count isOnSaved (notified (exec evs)) + inFlight (exec evs)
    <= List.length (calls (exec evs)).
Proof.
  intros evs. unfold run. apply saved_fold. cbv. lia.
Qed.

(** X12. The form calls [onClose] for a click on the backdrop, on the
    header cross or on Cancel, once per click, and for nothing else: not
    when a save succeeds, not when it fails. *)
Theorem close_only_on_click :
  forall evs : list Event,
    count isOnClose (notified (exec evs)) = count isClickClose evs.
Proof.
  intros evs. unfold run. rewrite closed_fold. reflexivity.
Qed.




End Outcomes.


(** *** After the mutation has settled *)

Section Settled.

Context {Id : Type}.
Variable feature : Feature.t Id.
Variable formId : string.

Local Abbreviation step := (dispatch feature formId).







End Settled.



(** *** What the priority text may hold *)

Section PriorityText.

Local Open Scope Z_scope.

Lemma trimStart_app_blank (pad x : string) :
  blank pad = true -> JS.trimStart (pad ++ x) = JS.trimStart x.
Proof.
  induction pad as [|c r IH]; cbn [blank append JS.trimStart]; [reflexivity|].
  intros H. apply andb_true_iff in H as [Hc Hr]. rewrite Hc. auto.
Qed.

Lemma trimStart_idem (s : string) : JS.trimStart (JS.trimStart s) = JS.trimStart s.
Proof.
  apply trimStart_headNonWhite, headNonWhite_trimStart.
Qed.

Lemma parseInt10_trimStart (s : string) :
  JS.parseInt10 (JS.trimStart s) = JS.parseInt10 s.
Proof.
  unfold JS.parseInt10. now rewrite trimStart_idem.
Qed.

Lemma readDigits_nondigit (tail : string) (seen : bool) (acc : Z) :
  headNonDigit tail = true -> JS.readDigits tail seen acc = (seen, acc).
Proof.
  destruct tail as [|c r]; [reflexivity|].
  cbn [headNonDigit JS.readDigits].
  destruct (JS.digitValue c); [discriminate | reflexivity].
Qed.

Lemma readDigits_app_tail (u : Decimal.uint) (tail : string) :
  headNonDigit tail = true ->
  forall (seen : bool) (acc : Z),
    JS.readDigits (NilEmpty.string_of_uint u ++ tail) seen acc
    = JS.readDigits (NilEmpty.string_of_uint u) seen acc.
Proof.
  intros Ht.
  induction u; intros seen acc;
    cbn [NilEmpty.string_of_uint append JS.readDigits JS.digitValue];
    [now apply readDigits_nondigit | apply IHu ..].
Qed.

Lemma string_of_uint_pos (p : positive) :
  NilZero.string_of_uint (Pos.to_uint p) = NilEmpty.string_of_uint (Pos.to_uint p).
Proof.
  unfold NilZero.string_of_uint.
  pose proof (DecimalPos.Unsigned.to_uint_nonnil p) as Hn.
  destruct (Pos.to_uint p); [contradiction | reflexivity ..].
Qed.

Lemma parseInt10_number_tail (n : Z) (tail : string) :
  headNonDigit tail = true ->
  JS.parseInt10 (JS.String_of_number n ++ tail) = Some n.
Proof.
  intros Ht. unfold JS.String_of_number.
  destruct n as [|p|p]; cbn [Z.to_int NilZero.string_of_int].
  - apply parseInt10_digits.
    change (NilZero.string_of_uint (Decimal.D0 Decimal.Nil) ++ tail)%string
      with (String "0" tail).
    cbn [JS.readDigits JS.digitValue]. now rewrite readDigits_nondigit.
  - apply parseInt10_digits.
    now rewrite string_of_uint_pos, readDigits_app_tail, readDigits_to_uint.
  - cbn [append]. unfold JS.parseInt10.
    match goal with
    | |- context [JS.trimStart ?s] => change (JS.trimStart s) with s
    end.
    cbv beta iota zeta.
    now rewrite string_of_uint_pos, readDigits_app_tail, readDigits_to_uint.
Qed.

Lemma parseInt10_padded (n : Z) (pad tail : string) :
  blank pad = true ->
  headNonDigit tail = true ->
  JS.parseInt10 (pad ++ JS.String_of_number n ++ tail) = Some n.
Proof.
  intros Hp Ht.
  rewrite <- parseInt10_trimStart, trimStart_app_blank, parseInt10_trimStart
    by exact Hp.
  now apply parseInt10_number_tail.
Qed.

Context {Id : Type}.
Variable feature : Feature.t Id.

(** X16. The priority is compared and sent as [parseInt] reads it: a text
    made of white space, the digits of the original priority, and then
    anything that does not start with a digit (a fraction, an exponent,
    letters) counts as the original priority, in [hasChanges] and in the
    argument of the mutation. *)
Theorem priority_text_is_read_by_prefix :
  forall (st : State) (pad tail : string),
    blank pad = true ->
    headNonDigit tail = true ->
    JS.parseInt10
      (pad ++ JS.String_of_number (Feature.priority feature) ++ tail)
    = Some (Feature.priority feature)
    /\ hasChanges feature
         (setPriority
            (pad ++ JS.String_of_number (Feature.priority feature) ++ tail) st)
       = hasChanges feature
           (setPriority (JS.String_of_number (Feature.priority feature)) st)
    /\ mutateArgs feature
         (setPriority
            (pad ++ JS.String_of_number (Feature.priority feature) ++ tail) st)
       = mutateArgs feature
           (setPriority (JS.String_of_number (Feature.priority feature)) st).
Proof.
  intros st pad tail Hp Ht.
  pose proof (parseInt10_padded (Feature.priority feature) pad tail Hp Ht) as H.
  split; [exact H|].
  unfold hasChanges, mutateArgs, filteredSteps, currentSteps.
  cbn [category name description priority steps setPriority].
  rewrite H, parseInt10_String_of_number. split; reflexivity.
Qed.

End PriorityText.

(** The priority 2 typed as " 2.5". *)
Lemma priority_text_is_read_by_prefix_witness :
  blank " " = true
  /\ headNonDigit ".5" = true
  /\ hasChanges loginFeature
       (setPriority " 2.5" (initialState loginFeature ":r1:")) = false.
Proof.
  split; [reflexivity|]. split; [reflexivity|].
  exact (eq_trans
    (proj1 (proj2
      (priority_text_is_read_by_prefix loginFeature
         (initialState loginFeature ":r1:") " " ".5" eq_refl eq_refl)))
    eq_refl).
Defined.

(** *** The counter *)

Section Counter.

Context {Id : Type}.
Variable feature : Feature.t Id.
Variable formId : string.

Lemma counter_step (s : @Session Id) (e : Event) :
  stepCounter (view (dispatch feature formId s e))
  = stepCounter (view s) + (if isClickAddStep e then 1 else 0).
Proof.
  destruct e; cbn [dispatch view onView isClickAddStep]; try apply plus_n_O.
  - reflexivity.
  - destruct (removeRendered (view s)); apply plus_n_O.
  - destruct (submitDisabled feature s); apply plus_n_O.
  - destruct (inFlight s); [apply plus_n_O|]. destruct o; apply plus_n_O.
Qed.

Lemma counter_run (evs : list Event) :
  forall s : @Session Id,
    stepCounter (view (fold_left (dispatch feature formId) evs s))
    = stepCounter (view s) + count isClickAddStep evs.
Proof.
  induction evs as [|e evs IH]; intros s; simpl; [apply plus_n_O|].
  rewrite IH, counter_step. unfold count. cbn [filter].
  destruct (isClickAddStep e); cbn [List.length]; lia.
Qed.

Lemma rows_below_counter (st : State) :
  rowsWellFormed formId st ->
  incl (ids (steps st)) (map (stepId formId) (seq 0 (stepCounter st))).
Proof.
  intros (_ & Hall & _) x Hx.
  rewrite Forall_forall in Hall. destruct (Hall x Hx) as (i & Hi & ->).
  apply in_map, in_seq. lia.
Qed.

(** X17. The counter is the number of steps of the feature (1 when it has
    none) plus the number of clicks on "Add Step"; the form opens with the
    ids [formId-step-0], [formId-step-1], ... up to the counter; and at
    every moment each row id is [formId-step-i] for some [i] below the
    counter, so there are never more rows than the counter says. *)
Theorem counter_counts_minted_ids :
  forall evs : list Event,
    stepCounter (view (run feature formId evs))
    = initialStepCounter feature + count isClickAddStep evs
    /\ ids (steps (view (run feature formId [])))
       = map (stepId formId) (seq 0 (initialStepCounter feature))
    /\ incl (ids (steps (view (run feature formId evs))))
         (map (stepId formId)
            (seq 0 (stepCounter (view (run feature formId evs)))))
    /\ List.length (steps (view (run feature formId evs)))
       <= stepCounter (view (run feature formId evs)).
Proof.
  intros evs.
  pose proof (wf_run feature formId evs) as Hwf.
  pose proof (rows_below_counter _ Hwf) as Hincl.
  split; [unfold run; now rewrite counter_run|].
  split; [apply ids_initialSteps|].
  split; [exact Hincl|].
  destruct Hwf as (Hnd & _ & _).
  pose proof (NoDup_incl_length Hnd Hincl) as Hlen.
  unfold ids in Hlen. now rewrite !length_map, length_seq in Hlen.
Qed.

End Counter.
